(** * ESP32-CAM configuration header: [ESP32/config_template.h]

    The header is a flat list of preprocessor definitions.  Every object-like
    macro is embedded as a constant of the same name: an integer macro as a
    [Z] (all of them are C [int] literals, far inside the 32-bit range), a
    string macro as a [string], the frame size as a constructor of the
    enumeration the header's comment lists.  Macros that the header only
    shows commented out ([USE_STATIC_IP], [STATIC_IP], [GATEWAY], [SUBNET],
    [DNS1], [DNS2]) are not defined and have no constant here. *)

From Stdlib Require Import ZArith List String Bool Lia.
Import ListNotations.

Local Open Scope Z_scope.

(** ** The definitions of the header, in source order *)

Module ConfigH.

(** Frame size options listed in the comment above [CAMERA_FRAME_SIZE]. *)
Inductive framesize_t : Type :=
| FRAMESIZE_QQVGA
| FRAMESIZE_QVGA
| FRAMESIZE_VGA
| FRAMESIZE_SVGA
| FRAMESIZE_XGA
| FRAMESIZE_SXGA
| FRAMESIZE_UXGA.

(** Width and height in pixels, as the same comment gives them. *)
Definition framesize_dims (f : framesize_t) : Z * Z :=
  match f with
  | FRAMESIZE_QQVGA => (160, 120)
  | FRAMESIZE_QVGA => (320, 240)
  | FRAMESIZE_VGA => (640, 480)
  | FRAMESIZE_SVGA => (800, 600)
  | FRAMESIZE_XGA => (1024, 768)
  | FRAMESIZE_SXGA => (1280, 1024)
  | FRAMESIZE_UXGA => (1600, 1200)
  end.

(* ========== WiFi Configuration ========== *)
Definition WIFI_SSID : string := "YOUR_WIFI_SSID".
Definition WIFI_PASSWORD : string := "YOUR_WIFI_PASSWORD".

(* ========== Server Configuration ========== *)
Definition HTTP_PORT : Z := 81.
Definition DEVICE_NAME : string := "esp32cam".

(* ========== Camera Configuration ========== *)
Definition CAMERA_FRAME_SIZE : framesize_t := FRAMESIZE_VGA.
Definition JPEG_QUALITY : Z := 12.
Definition FRAME_DELAY_MS : Z := 33.

(* ========== Hardware Configuration ========== *)
Definition PWDN_GPIO_NUM : Z := 32.
Definition RESET_GPIO_NUM : Z := -1.
Definition XCLK_GPIO_NUM : Z := 0.
Definition SIOD_GPIO_NUM : Z := 26.
Definition SIOC_GPIO_NUM : Z := 27.
Definition Y9_GPIO_NUM : Z := 35.
Definition Y8_GPIO_NUM : Z := 34.
Definition Y7_GPIO_NUM : Z := 39.
Definition Y6_GPIO_NUM : Z := 36.
Definition Y5_GPIO_NUM : Z := 21.
Definition Y4_GPIO_NUM : Z := 19.
Definition Y3_GPIO_NUM : Z := 18.
Definition Y2_GPIO_NUM : Z := 5.
Definition VSYNC_GPIO_NUM : Z := 25.
Definition HREF_GPIO_NUM : Z := 23.
Definition PCLK_GPIO_NUM : Z := 22.

(* ========== Features ========== *)
Definition ENABLE_MDNS : Z := 1.
Definition ENABLE_OTA : Z := 0.
Definition ENABLE_SERIAL : Z := 1.
Definition LED_FLASH_GPIO : Z := 4.
Definition ENABLE_FLASH : Z := 0.

(* ========== Advanced Settings ========== *)
Definition CAM_BRIGHTNESS : Z := 0.
Definition CAM_CONTRAST : Z := 0.
Definition CAM_SATURATION : Z := 0.
Definition CAM_SHARPNESS : Z := 0.
Definition CAM_DENOISE : Z := 0.
Definition CAM_AE_LEVEL : Z := 0.
Definition CAM_GAIN_CEILING : Z := 0.
Definition WATCHDOG_TIMEOUT : Z := 30.

(* ========== API Configuration ========== *)
Definition CORS_ORIGIN : string := "*".
Definition ENABLE_AUTH : Z := 0.
Definition API_KEY : string := "your_secret_api_key_here".

End ConfigH.

Import ConfigH.

(** ** Views of the header used by the properties *)

(** The sixteen camera control and data lines, each macro name with the GPIO
    number it expands to, in the order of the header (lines 49 to 64). *)
Definition camera_pin_table : list (string * Z) :=
  [ ("PWDN_GPIO_NUM"%string, PWDN_GPIO_NUM);
    ("RESET_GPIO_NUM"%string, RESET_GPIO_NUM);
    ("XCLK_GPIO_NUM"%string, XCLK_GPIO_NUM);
    ("SIOD_GPIO_NUM"%string, SIOD_GPIO_NUM);
    ("SIOC_GPIO_NUM"%string, SIOC_GPIO_NUM);
    ("Y9_GPIO_NUM"%string, Y9_GPIO_NUM);
    ("Y8_GPIO_NUM"%string, Y8_GPIO_NUM);
    ("Y7_GPIO_NUM"%string, Y7_GPIO_NUM);
    ("Y6_GPIO_NUM"%string, Y6_GPIO_NUM);
    ("Y5_GPIO_NUM"%string, Y5_GPIO_NUM);
    ("Y4_GPIO_NUM"%string, Y4_GPIO_NUM);
    ("Y3_GPIO_NUM"%string, Y3_GPIO_NUM);
    ("Y2_GPIO_NUM"%string, Y2_GPIO_NUM);
    ("VSYNC_GPIO_NUM"%string, VSYNC_GPIO_NUM);
    ("HREF_GPIO_NUM"%string, HREF_GPIO_NUM);
    ("PCLK_GPIO_NUM"%string, PCLK_GPIO_NUM) ].

Definition camera_pins : list Z := map snd camera_pin_table.

(** Membership and duplicate-freedom of GPIO numbers, as boolean checks. *)
Fixpoint pin_mem (p : Z) (l : list Z) : bool :=
  match l with
  | [] => false
  | q :: l' => (p =? q) || pin_mem p l'
  end.

Fixpoint pins_distinct (l : list Z) : bool :=
  match l with
  | [] => true
  | p :: l' => negb (pin_mem p l') && pins_distinct l'
  end.

(** A setting whose comment documents a closed range of valid values. *)
Record ranged_setting : Type := mk_ranged {
  rs_name : string;
  rs_value : Z;
  rs_lo : Z;
  rs_hi : Z
}.

Definition in_documented_range (r : ranged_setting) : bool :=
  (rs_lo r <=? rs_value r) && (rs_value r <=? rs_hi r).

(** The settings with a range in their comment: [JPEG_QUALITY] "10-63"
    (line 41), the sensor adjustments "-2 to 2" (lines 78 to 81 and 83),
    [CAM_DENOISE] "0 = off, 1 = on" (line 82), [CAM_GAIN_CEILING] "0 to 6"
    (line 84). *)
Definition documented_ranges : list ranged_setting :=
  [ mk_ranged "JPEG_QUALITY" JPEG_QUALITY 10 63;
    mk_ranged "CAM_BRIGHTNESS" CAM_BRIGHTNESS (-2) 2;
    mk_ranged "CAM_CONTRAST" CAM_CONTRAST (-2) 2;
    mk_ranged "CAM_SATURATION" CAM_SATURATION (-2) 2;
    mk_ranged "CAM_SHARPNESS" CAM_SHARPNESS (-2) 2;
    mk_ranged "CAM_DENOISE" CAM_DENOISE 0 1;
    mk_ranged "CAM_AE_LEVEL" CAM_AE_LEVEL (-2) 2;
    mk_ranged "CAM_GAIN_CEILING" CAM_GAIN_CEILING 0 6 ].

(** A 0/1 switch of the header together with the comment that describes it:
    the comment on its own line, or for [ENABLE_AUTH] the comment line right
    above it (line 93). *)
Record feature_flag : Type := mk_flag {
  ff_name : string;
  ff_value : Z;
  ff_comment : string
}.

Definition feature_flags : list feature_flag :=
  [ mk_flag "ENABLE_MDNS" ENABLE_MDNS "Enable mDNS (esp32cam.local)";
    mk_flag "ENABLE_OTA" ENABLE_OTA "Enable OTA updates (not implemented yet)";
    mk_flag "ENABLE_SERIAL" ENABLE_SERIAL "Enable serial debugging";
    mk_flag "ENABLE_FLASH" ENABLE_FLASH
            "Enable flash LED (warning: high power consumption)";
    mk_flag "CAM_DENOISE" CAM_DENOISE "0 = off, 1 = on";
    mk_flag "ENABLE_AUTH" ENABLE_AUTH
            "Authentication (optional, not implemented yet)" ].

(** A flag is boolean-like when it is 0 or 1. *)
Definition boolean_like (v : Z) : Prop := v = 0 \/ v = 1.

(** The truth value C gives an integer in [#if] and [if]: on unless zero. *)
Definition flag_on (v : Z) : bool := negb (v =? 0).

(** [contains sub s]: the text [sub] occurs somewhere in [s]. *)
Definition contains (sub s : string) : bool :=
  match String.index 0 sub s with
  | Some _ => true
  | None => false
  end.

(** The header marks a feature as not implemented in its comment. *)
Definition marked_not_implemented (f : feature_flag) : bool :=
  contains "not implemented" (ff_comment f).

(** C division of [int]s truncates toward zero. *)
Definition c_div (a b : Z) : Z := Z.quot a b.
Definition c_rem (a b : Z) : Z := Z.rem a b.

(** Whole frames per second for a delay between frames given in
    milliseconds, after the comment "~30 FPS (1000/30 = 33ms)" (line 45). *)
Definition frames_per_second (delay_ms : Z) : Z := c_div 1000 delay_ms.

(** Delay in whole milliseconds for a frame rate, the computation the same
    comment writes out. *)
Definition delay_for_fps (fps : Z) : Z := c_div 1000 fps.

(** The suffix of multicast-DNS host names, and the host name the header's
    comments give for the device (lines 27 and 68). *)
Definition mdns_suffix : string := ".local".
Definition mdns_host_documented : string := "esp32cam.local".

(** ** The header as the preprocessor reads it

    Lines 7, 8 and 97 wrap the definitions in an include guard; lines 12 to
    95 define thirty-nine object-like macros; lines 17 to 22 show six more
    that are commented out. *)

(** Position of a frame size in the listing of the comment (lines 32 to 38),
    counted from 0. *)
Definition framesize_index (f : framesize_t) : Z :=
  match f with
  | FRAMESIZE_QQVGA => 0
  | FRAMESIZE_QVGA => 1
  | FRAMESIZE_VGA => 2
  | FRAMESIZE_SVGA => 3
  | FRAMESIZE_XGA => 4
  | FRAMESIZE_SXGA => 5
  | FRAMESIZE_UXGA => 6
  end.

(** Number of pixels of a frame. *)
Definition framesize_pixels (f : framesize_t) : Z :=
  fst (framesize_dims f) * snd (framesize_dims f).

(** The quality range the comment on line 42 recommends for detection. *)
Definition jpeg_quality_recommended : Z * Z := (10, 15).

(** What a macro expands to: nothing (the guard), an integer, a string
    literal, or the name of a frame size. *)
Inductive macro_body : Type :=
| BEmpty
| BInt (z : Z)
| BStr (s : string)
| BFrame (f : framesize_t).

Definition macro_body_eqb (a b : macro_body) : bool :=
  match a, b with
  | BEmpty, BEmpty => true
  | BInt x, BInt y => x =? y
  | BStr s, BStr t => String.eqb s t
  | BFrame f, BFrame g => framesize_index f =? framesize_index g
  | _, _ => false
  end.

(** The guard macro of lines 7 and 8. *)
Definition include_guard : string := "CONFIG_H".

(** The [#define] lines inside the guard, in source order. *)
Definition header_defines : list (string * macro_body) :=
  [ ("WIFI_SSID"%string, BStr WIFI_SSID);
    ("WIFI_PASSWORD"%string, BStr WIFI_PASSWORD);
    ("HTTP_PORT"%string, BInt HTTP_PORT);
    ("DEVICE_NAME"%string, BStr DEVICE_NAME);
    ("CAMERA_FRAME_SIZE"%string, BFrame CAMERA_FRAME_SIZE);
    ("JPEG_QUALITY"%string, BInt JPEG_QUALITY);
    ("FRAME_DELAY_MS"%string, BInt FRAME_DELAY_MS);
    ("PWDN_GPIO_NUM"%string, BInt PWDN_GPIO_NUM);
    ("RESET_GPIO_NUM"%string, BInt RESET_GPIO_NUM);
    ("XCLK_GPIO_NUM"%string, BInt XCLK_GPIO_NUM);
    ("SIOD_GPIO_NUM"%string, BInt SIOD_GPIO_NUM);
    ("SIOC_GPIO_NUM"%string, BInt SIOC_GPIO_NUM);
    ("Y9_GPIO_NUM"%string, BInt Y9_GPIO_NUM);
    ("Y8_GPIO_NUM"%string, BInt Y8_GPIO_NUM);
    ("Y7_GPIO_NUM"%string, BInt Y7_GPIO_NUM);
    ("Y6_GPIO_NUM"%string, BInt Y6_GPIO_NUM);
    ("Y5_GPIO_NUM"%string, BInt Y5_GPIO_NUM);
    ("Y4_GPIO_NUM"%string, BInt Y4_GPIO_NUM);
    ("Y3_GPIO_NUM"%string, BInt Y3_GPIO_NUM);
    ("Y2_GPIO_NUM"%string, BInt Y2_GPIO_NUM);
    ("VSYNC_GPIO_NUM"%string, BInt VSYNC_GPIO_NUM);
    ("HREF_GPIO_NUM"%string, BInt HREF_GPIO_NUM);
    ("PCLK_GPIO_NUM"%string, BInt PCLK_GPIO_NUM);
    ("ENABLE_MDNS"%string, BInt ENABLE_MDNS);
    ("ENABLE_OTA"%string, BInt ENABLE_OTA);
    ("ENABLE_SERIAL"%string, BInt ENABLE_SERIAL);
    ("LED_FLASH_GPIO"%string, BInt LED_FLASH_GPIO);
    ("ENABLE_FLASH"%string, BInt ENABLE_FLASH);
    ("CAM_BRIGHTNESS"%string, BInt CAM_BRIGHTNESS);
    ("CAM_CONTRAST"%string, BInt CAM_CONTRAST);
    ("CAM_SATURATION"%string, BInt CAM_SATURATION);
    ("CAM_SHARPNESS"%string, BInt CAM_SHARPNESS);
    ("CAM_DENOISE"%string, BInt CAM_DENOISE);
    ("CAM_AE_LEVEL"%string, BInt CAM_AE_LEVEL);
    ("CAM_GAIN_CEILING"%string, BInt CAM_GAIN_CEILING);
    ("WATCHDOG_TIMEOUT"%string, BInt WATCHDOG_TIMEOUT);
    ("CORS_ORIGIN"%string, BStr CORS_ORIGIN);
    ("ENABLE_AUTH"%string, BInt ENABLE_AUTH);
    ("API_KEY"%string, BStr API_KEY) ].

Definition header_names : list string := map fst header_defines.

(** The static-address macros the header shows only inside comments
    (lines 17 to 22). *)
Definition static_ip_macros : list string :=
  [ "USE_STATIC_IP"; "STATIC_IP"; "GATEWAY"; "SUBNET"; "DNS1"; "DNS2" ]%string.

(** State of the preprocessor: the macros defined so far, newest first, and
    the names that were redefined with a different body (each such [#define]
    is diagnosed by the compiler; the new body is the one in force). *)
Record pp_state : Type := mk_pp {
  pp_macros : list (string * macro_body);
  pp_redefined : list string
}.

Definition pp_init : pp_state := mk_pp [] [].

Fixpoint assoc_find (n : string) (l : list (string * macro_body))
  : option macro_body :=
  match l with
  | [] => None
  | (m, b) :: l' => if String.eqb n m then Some b else assoc_find n l'
  end.

Definition lookup (n : string) (st : pp_state) : option macro_body :=
  assoc_find n (pp_macros st).

(** [#ifdef n] *)
Definition defined (n : string) (st : pp_state) : bool :=
  match lookup n st with
  | Some _ => true
  | None => false
  end.

(** [#define n b] *)
Definition define (n : string) (b : macro_body) (st : pp_state) : pp_state :=
  mk_pp ((n, b) :: pp_macros st)
        (match lookup n st with
         | Some b' =>
             if macro_body_eqb b b' then pp_redefined st
             else n :: pp_redefined st
         | None => pp_redefined st
         end).

Definition define_all (ds : list (string * macro_body)) (st : pp_state)
  : pp_state :=
  fold_left (fun s d => define (fst d) (snd d) s) ds st.

(** [#include] of the header: nothing when the guard is already defined,
    else the guard and then every definition in order. *)
Definition include (st : pp_state) : pp_state :=
  if defined include_guard st then st
  else define_all header_defines (define include_guard BEmpty st).

(** Duplicate-freedom of macro names, as a boolean check. *)
Fixpoint name_mem (n : string) (l : list string) : bool :=
  match l with
  | [] => false
  | m :: l' => String.eqb n m || name_mem n l'
  end.

Fixpoint names_distinct (l : list string) : bool :=
  match l with
  | [] => true
  | n :: l' => negb (name_mem n l') && names_distinct l'
  end.

(** ** General facts about the checks *)

Section PinChecks.

Lemma pin_mem_In (p : Z) (l : list Z) : pin_mem p l = true <-> In p l.
Proof.
  induction l as [| q l IH]; simpl.
  - split; [discriminate | contradiction].
  - rewrite orb_true_iff, Z.eqb_eq, IH. split; intros [H | H]; auto.
Qed.

Lemma pin_mem_not_In (p : Z) (l : list Z) : pin_mem p l = false <-> ~ In p l.
Proof.
  rewrite <- pin_mem_In. destruct (pin_mem p l); split; congruence.
Qed.

Lemma pins_distinct_NoDup (l : list Z) : pins_distinct l = true <-> NoDup l.
Proof.
  induction l as [| p l IH]; simpl.
  - split; [constructor | reflexivity].
  - rewrite andb_true_iff, negb_true_iff, pin_mem_not_In, IH, NoDup_cons_iff.
    reflexivity.
Qed.

(** Duplicate-freedom read as "pairwise distinct" over positions. *)
Lemma NoDup_pairwise (l : list Z) (d : Z) (i j : nat) :
  NoDup l -> (i < List.length l)%nat -> (j < List.length l)%nat -> i <> j ->
  nth i l d <> nth j l d.
Proof.
  intros Hnd Hi Hj Hij Heq. apply Hij.
  exact (proj1 (NoDup_nth l d) Hnd i j Hi Hj Heq).
Qed.

End PinChecks.

Lemma in_documented_range_spec (r : ranged_setting) :
  in_documented_range r = true <-> rs_lo r <= rs_value r <= rs_hi r.
Proof.
  unfold in_documented_range. rewrite andb_true_iff, !Z.leb_le. reflexivity.
Qed.

Lemma flag_on_false (v : Z) : flag_on v = false <-> v = 0.
Proof.
  unfold flag_on. rewrite negb_false_iff. apply Z.eqb_eq.
Qed.

Lemma boolean_like_flag_on (v : Z) :
  boolean_like v -> flag_on v = true <-> v = 1.
Proof.
  intros [-> | ->]; split; intro H; try reflexivity; discriminate.
Qed.

(** Truncating division of non-negative numbers: the quotient [q] of [a] by
    [b] is the one number with [q * b <= a < (q + 1) * b]. *)
Lemma c_div_bounds (a b : Z) :
  0 <= a -> 0 < b -> c_div a b * b <= a < (c_div a b + 1) * b.
Proof.
  intros Ha Hb. unfold c_div. rewrite Z.quot_div_nonneg by lia.
  pose proof (Z.mul_div_le a b Hb). pose proof (Z.mul_succ_div_gt a b Hb). lia.
Qed.

(** Every setting with a documented range is inside it. *)
Lemma documented_ranges_hold :
  Forall (fun r => rs_lo r <= rs_value r <= rs_hi r) documented_ranges.
Proof.
  apply Forall_forall. intros r Hr. apply in_documented_range_spec.
  revert r Hr. apply Forall_forall.
  repeat constructor.
Qed.

Lemma camera_pins_unfold :
  camera_pins =
  [ PWDN_GPIO_NUM; RESET_GPIO_NUM; XCLK_GPIO_NUM; SIOD_GPIO_NUM; SIOC_GPIO_NUM;
    Y9_GPIO_NUM; Y8_GPIO_NUM; Y7_GPIO_NUM; Y6_GPIO_NUM; Y5_GPIO_NUM;
    Y4_GPIO_NUM; Y3_GPIO_NUM; Y2_GPIO_NUM; VSYNC_GPIO_NUM; HREF_GPIO_NUM;
    PCLK_GPIO_NUM ].
Proof. reflexivity. Qed.

Lemma camera_pins_NoDup : NoDup camera_pins.
Proof. apply pins_distinct_NoDup. vm_compute. reflexivity. Qed.

Lemma camera_pin_names_NoDup : NoDup (map fst camera_pin_table).
Proof.
  simpl. repeat (constructor; [simpl; intuition discriminate |]). constructor.
Qed.

(** ** Properties of the configuration *)

(** C1: the sixteen camera pin constants are pairwise distinct integers, and
    each of them is non-negative except [RESET_GPIO_NUM], which is -1
    ("unused").  Distinctness is stated both as [NoDup] of the list of values
    and position by position. *)
Theorem camera_pins_distinct_nonneg_except_reset :
  List.length camera_pin_table = 16%nat /\
  NoDup camera_pins /\
  (forall i j : nat, (i < 16)%nat -> (j < 16)%nat -> i <> j ->
     nth i camera_pins 0 <> nth j camera_pins 0) /\
  RESET_GPIO_NUM = -1 /\
  In ("RESET_GPIO_NUM"%string, RESET_GPIO_NUM) camera_pin_table /\
  (forall (name : string) (p : Z),
     In (name, p) camera_pin_table ->
     name <> "RESET_GPIO_NUM"%string -> 0 <= p).
Proof.
  split; [reflexivity |].
  split; [exact camera_pins_NoDup |].
  split.
  { intros i j Hi Hj Hij.
    apply NoDup_pairwise; auto using camera_pins_NoDup. }
  split; [reflexivity |].
  split; [simpl; auto |].
  intros name p Hin Hname. simpl in Hin.
  repeat (destruct Hin as [Hin | Hin];
          [ inversion Hin; subst; first [ discriminate | congruence ] | ]).
  contradiction.
Qed.

(** C2: the sixteen camera pin constants have the values of the AI-Thinker
    ESP32-CAM wiring: PWDN 32, RESET -1, XCLK 0, SIOD 26, SIOC 27, Y9 35,
    Y8 34, Y7 39, Y6 36, Y5 21, Y4 19, Y3 18, Y2 5, VSYNC 25, HREF 23,
    PCLK 22. *)
Theorem camera_pins_ai_thinker :
  PWDN_GPIO_NUM = 32 /\ RESET_GPIO_NUM = -1 /\ XCLK_GPIO_NUM = 0 /\
  SIOD_GPIO_NUM = 26 /\ SIOC_GPIO_NUM = 27 /\
  Y9_GPIO_NUM = 35 /\ Y8_GPIO_NUM = 34 /\ Y7_GPIO_NUM = 39 /\
  Y6_GPIO_NUM = 36 /\ Y5_GPIO_NUM = 21 /\ Y4_GPIO_NUM = 19 /\
  Y3_GPIO_NUM = 18 /\ Y2_GPIO_NUM = 5 /\
  VSYNC_GPIO_NUM = 25 /\ HREF_GPIO_NUM = 23 /\ PCLK_GPIO_NUM = 22 /\
  camera_pins =
  [32; -1; 0; 26; 27; 35; 34; 39; 36; 21; 19; 18; 5; 25; 23; 22].
Proof. repeat split. Qed.

(** C3: [JPEG_QUALITY] lies in its documented range, 10 to 63. *)
Theorem jpeg_quality_in_range : 10 <= JPEG_QUALITY <= 63.
Proof. unfold JPEG_QUALITY. lia. Qed.

(** C4: the sensor tuning constants lie in their documented ranges:
    brightness, contrast, saturation, sharpness and auto-exposure level in
    -2..2, the gain ceiling in 0..6. *)
Theorem sensor_settings_in_range :
  -2 <= CAM_BRIGHTNESS <= 2 /\
  -2 <= CAM_CONTRAST <= 2 /\
  -2 <= CAM_SATURATION <= 2 /\
  -2 <= CAM_SHARPNESS <= 2 /\
  -2 <= CAM_AE_LEVEL <= 2 /\
  0 <= CAM_GAIN_CEILING <= 6.
Proof.
  unfold CAM_BRIGHTNESS, CAM_CONTRAST, CAM_SATURATION, CAM_SHARPNESS,
    CAM_AE_LEVEL, CAM_GAIN_CEILING.
  lia.
Qed.

(** C5: the HTTP server port is 81, the default the header documents. *)
Theorem http_port_default : HTTP_PORT = 81.
Proof. reflexivity. Qed.

(** C6: every feature toggle is boolean-like: [ENABLE_MDNS], [ENABLE_OTA],
    [ENABLE_SERIAL], [ENABLE_FLASH], [ENABLE_AUTH] and [CAM_DENOISE] are each
    0 or 1. *)
Theorem feature_toggles_boolean_like :
  boolean_like ENABLE_MDNS /\ boolean_like ENABLE_OTA /\
  boolean_like ENABLE_SERIAL /\ boolean_like ENABLE_FLASH /\
  boolean_like ENABLE_AUTH /\ boolean_like CAM_DENOISE /\
  Forall (fun f => boolean_like (ff_value f)) feature_flags.
Proof.
  unfold boolean_like.
  repeat split; try (left; reflexivity); try (right; reflexivity).
  repeat constructor; simpl; first [ left; reflexivity | right; reflexivity ].
Qed.

(** C7: [DEVICE_NAME] is the string "esp32cam", so the multicast-DNS host
    name formed from it is the documented "esp32cam.local". *)
Theorem device_name_esp32cam :
  DEVICE_NAME = "esp32cam"%string /\
  (DEVICE_NAME ++ mdns_suffix)%string = mdns_host_documented /\
  mdns_host_documented = "esp32cam.local"%string.
Proof. repeat split. Qed.

(** C8: the flash LED pin [LED_FLASH_GPIO], GPIO 4, differs from each of the
    sixteen camera pins, so the flash LED shares no GPIO with the camera. *)
Theorem led_flash_gpio_not_a_camera_pin :
  LED_FLASH_GPIO = 4 /\
  ~ In LED_FLASH_GPIO camera_pins /\
  Forall (fun e : string * Z => snd e <> LED_FLASH_GPIO) camera_pin_table /\
  NoDup (LED_FLASH_GPIO :: camera_pins).
Proof.
  assert (Hnot : ~ In LED_FLASH_GPIO camera_pins).
  { apply pin_mem_not_In. vm_compute. reflexivity. }
  split; [reflexivity |].
  split; [exact Hnot |].
  split.
  - apply Forall_forall. intros [name p] Hin Heq. simpl in Heq. subst p.
    apply Hnot. unfold camera_pins. change LED_FLASH_GPIO with
      (snd (name, LED_FLASH_GPIO)). apply in_map. exact Hin.
  - constructor; [exact Hnot | exact camera_pins_NoDup].
Qed.

(** C9: with [FRAME_DELAY_MS] = 33, the truncating division 1000 / 33 gives
    exactly 30 frames per second; and 1000 / 30 gives 33 only because the
    division truncates: 30 * 33 falls short of 1000, by a remainder of 10. *)
Theorem frame_delay_is_30_fps :
  FRAME_DELAY_MS = 33 /\
  c_div 1000 FRAME_DELAY_MS = 30 /\
  frames_per_second FRAME_DELAY_MS = 30 /\
  delay_for_fps 30 = FRAME_DELAY_MS /\
  c_rem 1000 30 = 10 /\
  30 * FRAME_DELAY_MS < 1000 < 30 * (FRAME_DELAY_MS + 1).
Proof.
  unfold frames_per_second, delay_for_fps, c_div, c_rem, FRAME_DELAY_MS.
  repeat split.
Qed.

(** C10: every feature the header marks as not implemented is off by
    default: the marked flags are exactly [ENABLE_OTA] and [ENABLE_AUTH],
    both are 0, and so neither OTA updates nor API-key authentication is
    turned on. *)
Theorem unimplemented_features_disabled :
  ENABLE_OTA = 0 /\ ENABLE_AUTH = 0 /\
  flag_on ENABLE_OTA = false /\ flag_on ENABLE_AUTH = false /\
  map ff_name (filter marked_not_implemented feature_flags) =
    [ "ENABLE_OTA"%string; "ENABLE_AUTH"%string ] /\
  Forall (fun f => marked_not_implemented f = true ->
                   ff_value f = 0 /\ flag_on (ff_value f) = false)
         feature_flags.
Proof.
  split; [reflexivity |].
  split; [reflexivity |].
  split; [reflexivity |].
  split; [reflexivity |].
  split; [vm_compute; reflexivity |].
  repeat (constructor;
          [ intro H; first [ vm_compute in H; discriminate H
                           | split; reflexivity ] | ]).
  constructor.
Qed.

(** ** The preprocessor model: general facts *)

Section Preprocessor.

Lemma name_mem_In (n : string) (l : list string) :
  name_mem n l = true <-> In n l.
Proof.
  induction l as [| m l IH]; simpl.
  - split; [discriminate | contradiction].
  - rewrite orb_true_iff, String.eqb_eq, IH.
    split; intros [H | H]; auto.
Qed.

Lemma names_distinct_NoDup (l : list string) :
  names_distinct l = true -> NoDup l.
Proof.
  induction l as [| n l IH]; simpl; intro H.
  - constructor.
  - apply andb_true_iff in H. destruct H as [Hn Hl].
    constructor; [| exact (IH Hl)].
    intro Hin. apply name_mem_In in Hin. rewrite Hin in Hn. discriminate.
Qed.




Lemma lookup_define (n m : string) (b : macro_body) (st : pp_state) :
  lookup n (define m b st) = if String.eqb n m then Some b else lookup n st.
Proof. reflexivity. Qed.

Lemma lookup_define_other (n m : string) (b : macro_body) (st : pp_state) :
  n <> m -> lookup n (define m b st) = lookup n st.
Proof.
  intro H. rewrite lookup_define. apply String.eqb_neq in H. now rewrite H.
Qed.

Lemma lookup_define_same (n : string) (b : macro_body) (st : pp_state) :
  lookup n (define n b st) = Some b.
Proof. rewrite lookup_define. now rewrite String.eqb_refl. Qed.

Lemma define_all_cons (d : string * macro_body) ds (st : pp_state) :
  define_all (d :: ds) st = define_all ds (define (fst d) (snd d) st).
Proof. reflexivity. Qed.

Lemma lookup_define_all_other ds (st : pp_state) (n : string) :
  ~ In n (map fst ds) -> lookup n (define_all ds st) = lookup n st.
Proof.
  revert st. induction ds as [| [m c] ds IH]; intros st Hn; [reflexivity |].
  rewrite define_all_cons. simpl in Hn |- *.
  rewrite IH by tauto. apply lookup_define_other. intro; subst; tauto.
Qed.

Lemma lookup_define_all_in ds (st : pp_state) (n : string) (b : macro_body) :
  NoDup (map fst ds) -> In (n, b) ds ->
  lookup n (define_all ds st) = Some b.
Proof.
  revert st. induction ds as [| [m c] ds IH]; intros st Hnd Hin; [contradiction |].
  rewrite define_all_cons. simpl in Hnd |- *. inversion Hnd as [| ? ? Hm Hnd']; subst.
  destruct Hin as [Heq | Hin].
  - injection Heq as -> ->.
    rewrite lookup_define_all_other by exact Hm. apply lookup_define_same.
  - apply IH; assumption.
Qed.




End Preprocessor.

(** ** The header under the preprocessor *)

Lemma header_names_NoDup : NoDup header_names.
Proof. apply names_distinct_NoDup. vm_compute. reflexivity. Qed.

Lemma include_guard_fresh : ~ In include_guard header_names.
Proof.
  intro H. apply name_mem_In in H. vm_compute in H. discriminate H.
Qed.


Lemma include_guarded (st : pp_state) :
  defined include_guard st = true -> include st = st.
Proof. unfold include. now intros ->. Qed.

Lemma include_unguarded (st : pp_state) :
  defined include_guard st = false ->
  include st = define_all header_defines (define include_guard BEmpty st).
Proof. unfold include. now intros ->. Qed.

Lemma defined_guard_include (st : pp_state) :
  defined include_guard (include st) = true.
Proof.
  destruct (defined include_guard st) eqn:Hg.
  - now rewrite include_guarded.
  - rewrite include_unguarded by exact Hg. unfold defined.
    rewrite lookup_define_all_other by exact include_guard_fresh.
    now rewrite lookup_define_same.
Qed.

Lemma lookup_include_other (st : pp_state) (n : string) :
  n <> include_guard -> ~ In n header_names ->
  lookup n (include st) = lookup n st.
Proof.
  intros Hg Hn. destruct (defined include_guard st) eqn:Hd.
  - now rewrite include_guarded.
  - rewrite include_unguarded by exact Hd.
    rewrite lookup_define_all_other by exact Hn.
    now apply lookup_define_other.
Qed.

Lemma static_ip_macros_fresh (n : string) :
  In n static_ip_macros -> n <> include_guard /\ ~ In n header_names.
Proof.
  intro H. simpl in H.
  repeat (destruct H as [<- | H];
          [ split; [ discriminate
                   | intro Hin; apply name_mem_In in Hin;
                     vm_compute in Hin; discriminate Hin ] | ]).
  contradiction.
Qed.



(** ** Further properties of the header *)

(** X1: the include guard makes the header idempotent: after one inclusion
    the guard is defined, and including the header again changes neither the
    macros nor the diagnostics, whatever was defined before. *)
Theorem include_twice_is_include_once (st : pp_state) :
  defined include_guard (include st) = true /\
  include (include st) = include st.
Proof.
  split; [apply defined_guard_include |].
  apply include_guarded, defined_guard_include.
Qed.

(** X2: the header's values are the ones in force after it is included:
    unless the guard was already defined, every macro of the header expands
    to the header's body afterwards, also when the including file or the
    command line had given it another body before. *)
Theorem include_defines_header_values
  (st : pp_state) (n : string) (b : macro_body) :
  defined include_guard st = false ->
  In (n, b) header_defines ->
  lookup n (include st) = Some b.
Proof.
  intros Hd Hin. rewrite include_unguarded by exact Hd.
  apply lookup_define_all_in; [exact header_names_NoDup | exact Hin].
Qed.

Lemma include_defines_header_values_witness :
  defined include_guard (define "HTTP_PORT" (BInt 8080) pp_init) = false /\
  lookup "HTTP_PORT"
         (include (define "HTTP_PORT" (BInt 8080) pp_init)) = Some (BInt 81).
Proof.
  split; [reflexivity |].
  apply (include_defines_header_values
           (define "HTTP_PORT" (BInt 8080) pp_init) "HTTP_PORT" (BInt 81)).
  - reflexivity.
  - right; right; left; reflexivity.
Defined.



(** X4: the header defines nothing but its guard and its thirty-nine
    macros: every other name is defined after the inclusion exactly as it was
    before, with the same body. *)
Theorem include_keeps_other_macros (st : pp_state) (n : string) :
  n <> include_guard -> ~ In n header_names ->
  lookup n (include st) = lookup n st /\
  defined n (include st) = defined n st.
Proof.
  intros Hg Hn. unfold defined.
  rewrite (lookup_include_other st n Hg Hn). split; reflexivity.
Qed.

Lemma include_keeps_other_macros_witness :
  lookup "LED_BUILTIN" (include (define "LED_BUILTIN" (BInt 33) pp_init))
  = Some (BInt 33).
Proof.
  refine (eq_trans
            (proj1 (include_keeps_other_macros
                      (define "LED_BUILTIN" (BInt 33) pp_init) "LED_BUILTIN"
                      _ _))
            eq_refl).
  - discriminate.
  - intro Hin. apply name_mem_In in Hin. vm_compute in Hin. discriminate Hin.
Defined.

(** X5: the static-address macros that the header shows only in comments
    ([USE_STATIC_IP], [STATIC_IP], [GATEWAY], [SUBNET], [DNS1], [DNS2]) are
    never defined by it: each is defined after the inclusion only if it was
    before, so the header on its own leaves the device on DHCP. *)
Theorem static_ip_macros_not_defined :
  Forall (fun n => forall st : pp_state,
                     defined n (include st) = defined n st)
         static_ip_macros /\
  Forall (fun n => defined n (include pp_init) = false) static_ip_macros.
Proof.
  assert (H : forall n, In n static_ip_macros ->
                        forall st, defined n (include st) = defined n st).
  { intros n Hn st. destruct (static_ip_macros_fresh n Hn) as [Hg Hh].
    unfold defined. now rewrite (lookup_include_other st n Hg Hh). }
  split; apply Forall_forall; intros n Hn.
  - exact (H n Hn).
  - now rewrite (H n Hn pp_init).
Qed.



(** X7: the frame size options are listed from the smallest to the largest:
    an option further down the list is strictly wider and strictly taller,
    and so has strictly more pixels. *)
Theorem framesize_options_increasing (f g : framesize_t) :
  framesize_index f < framesize_index g ->
  fst (framesize_dims f) < fst (framesize_dims g) /\
  snd (framesize_dims f) < snd (framesize_dims g) /\
  framesize_pixels f < framesize_pixels g.
Proof.
  unfold framesize_pixels.
  destruct f, g; simpl; intro H; try lia; discriminate H.
Qed.

Lemma framesize_options_increasing_witness :
  fst (framesize_dims FRAMESIZE_QVGA) < fst (framesize_dims CAMERA_FRAME_SIZE) /\
  snd (framesize_dims FRAMESIZE_QVGA) < snd (framesize_dims CAMERA_FRAME_SIZE) /\
  framesize_pixels FRAMESIZE_QVGA < framesize_pixels CAMERA_FRAME_SIZE.
Proof.
  apply (framesize_options_increasing FRAMESIZE_QVGA CAMERA_FRAME_SIZE).
  reflexivity.
Defined.

(** X8: [JPEG_QUALITY] is inside the range 10 to 15 that the header
    recommends for detection, and that range is inside the valid range
    10 to 63. *)
Theorem jpeg_quality_recommended_for_detection :
  fst jpeg_quality_recommended <= JPEG_QUALITY <= snd jpeg_quality_recommended /\
  10 <= fst jpeg_quality_recommended /\
  snd jpeg_quality_recommended <= 63.
Proof. unfold jpeg_quality_recommended, JPEG_QUALITY. simpl. lia. Qed.

(** X9: the frame-rate arithmetic of the header's comment, for any delay
    from 1 to 1000 ms: the whole number of frames per second is at least 1,
    that many delays fit into a second and one more does not, and the delay
    computed back from the rate is never shorter than the delay itself. *)
Theorem frame_rate_round_trip (d : Z) :
  0 < d <= 1000 ->
  1 <= frames_per_second d <= 1000 /\
  frames_per_second d * d <= 1000 < (frames_per_second d + 1) * d /\
  d <= delay_for_fps (frames_per_second d).
Proof.
  intros Hd.
  pose proof (c_div_bounds 1000 d ltac:(lia) ltac:(lia)) as Hb.
  unfold frames_per_second, delay_for_fps in *.
  assert (Hq : 1 <= c_div 1000 d) by nia.
  assert (Hq' : c_div 1000 d <= 1000) by nia.
  split; [lia |]. split; [exact Hb |].
  set (q := c_div 1000 d) in *. unfold c_div at 1.
  rewrite Z.quot_div_nonneg by lia.
  apply Z.div_le_lower_bound; lia.
Qed.

Lemma frame_rate_round_trip_witness :
  1 <= frames_per_second FRAME_DELAY_MS <= 1000 /\
  frames_per_second FRAME_DELAY_MS * FRAME_DELAY_MS <= 1000
    < (frames_per_second FRAME_DELAY_MS + 1) * FRAME_DELAY_MS /\
  FRAME_DELAY_MS <= delay_for_fps (frames_per_second FRAME_DELAY_MS).
Proof.
  apply (frame_rate_round_trip FRAME_DELAY_MS).
  unfold FRAME_DELAY_MS. lia.
Defined.
